(** * ONS API client (src/api/ons-client.ts): a shallow embedding

    The client is a thin layer over an axios instance.  The only effects are
    HTTP requests and [console.warn]; both are recorded in an explicit state
    that every operation threads.  A rejected promise (a thrown exception) is
    a [Settled] value of its own, so that [try]/[catch] can be written out.

    Conventions.
    - A JavaScript string is a [string], the UTF-8 bytes of its text;
      concatenation and substring search are the same on both.  Conversion
      to lower case is modelled on text in the ASCII range only, and what is
      stated about it is stated for such text.
    - A JavaScript number that the code uses as an integer (HTTP status,
      limit, offset, count) is a [Z].  Fractional numbers, NaN and infinities
      are outside the model.
    - The body of a successful response has the TypeScript type that the
      calling operation declares for it; operations that only hand the body
      on are polymorphic in it.  A body of another shape (JSON null, an item
      without a title) makes the operations that read into it throw a
      TypeError; such bodies are outside the model.
    - The [message] field of an error body is modelled when it is a string
      or absent.
    - A parameter with a default value is an [option]: [None] is the omitted
      argument. *)

From Stdlib Require Import String Ascii List ZArith Lia Bool DecimalString.
Import ListNotations.

Local Open Scope string_scope.
Local Open Scope Z_scope.

(** ** JavaScript primitives used by the client *)

Module Js.

(** [`${n}`] for an integer-valued number. *)
Definition Number_toString (n : Z) : string :=
  NilZero.string_of_int (Z.to_int n).

(** Truthiness of a string: only the empty string is falsy. *)
Definition truthy (s : string) : bool :=
  match s with
  | EmptyString => false
  | String _ _ => true
  end.

(** [a || b] where [a] is a possibly-undefined string. *)
Definition or_else (a : option string) (b : string) : string :=
  match a with
  | Some s => if truthy s then s else b
  | None => b
  end.

(** [a ?? d] for a defaulted parameter. *)
Definition default {A : Type} (a : option A) (d : A) : A :=
  match a with
  | Some x => x
  | None => d
  end.

Fixpoint startsWith (s p : string) : bool :=
  match p, s with
  | EmptyString, _ => true
  | String c p', String d s' => Ascii.eqb c d && startsWith s' p'
  | String _ _, EmptyString => false
  end.

(** [s.includes(sub)]: [sub] occurs in [s] at some position. *)
Fixpoint includes (s sub : string) : bool :=
  startsWith s sub ||
  match s with
  | EmptyString => false
  | String _ s' => includes s' sub
  end.

(** Text in the ASCII range: every code unit is below 128. *)
Fixpoint is_ascii (s : string) : bool :=
  match s with
  | EmptyString => true
  | String c s' => Nat.ltb (nat_of_ascii c) 128 && is_ascii s'
  end.

(** [c] does not occur in [s]. *)
Fixpoint lacks (c : ascii) (s : string) : bool :=
  match s with
  | EmptyString => true
  | String d s' => negb (Ascii.eqb c d) && lacks c s'
  end.

(** The first code unit of [s] is a decimal digit.  A property key that is an
    integer index is written with digits only, so a key that does not start
    with a digit is listed by [Object.entries] in insertion order. *)
Definition starts_with_digit (s : string) : bool :=
  match s with
  | EmptyString => false
  | String c _ =>
      Nat.leb 48 (nat_of_ascii c) && Nat.leb (nat_of_ascii c) 57
  end.

(** [String.prototype.toLowerCase] on text in the ASCII range ([is_ascii]):
    there the conversion goes code unit by code unit and turns A-Z into a-z.
    On other text the conversion of JavaScript follows the Unicode tables
    and this definition does not; a statement whose truth depends on how
    the conversion acts carries [is_ascii] as a hypothesis. *)
Definition lower_ascii (c : ascii) : ascii :=
  let n := nat_of_ascii c in
  if (Nat.leb 65 n && Nat.leb n 90)%bool then ascii_of_nat (n + 32) else c.

Fixpoint toLowerCase (s : string) : string :=
  match s with
  | EmptyString => EmptyString
  | String c s' => String (lower_ascii c) (toLowerCase s')
  end.

(** [Array.prototype.slice(start, end)] for integer arguments
    (ECMAScript 23.1.3.28): a negative index counts from the end. *)
Definition relative_index (len i : Z) : Z :=
  if i <? 0 then Z.max (len + i) 0 else Z.min i len.

Definition slice {A : Type} (l : list A) (start end_ : Z) : list A :=
  let len := Z.of_nat (List.length l) in
  let k := relative_index len start in
  let final := relative_index len end_ in
  firstn (Z.to_nat (Z.max (final - k) 0)) (skipn (Z.to_nat k) l).

(** [Array.prototype.join] on strings. *)
Definition join (sep : string) (l : list string) : string :=
  String.concat sep l.

End Js.

(** ** Data shapes (the exported interfaces) *)

Record Href := { href : string }.

Record TitledLink := { tl_href : string; tl_title : string }.

Record Contact := { email : string; name : string; telephone : string }.

Record DimensionLinks := { options : Href; dl_self : Href }.

Record Dimension := {
  dim_id : string;
  dim_name : string;
  dim_label : string;
  dim_links : DimensionLinks
}.

Record DatasetLinks := { self : Href; latest_version : Href; editions : Href }.

Record ONSDataset := {
  id : string;
  title : string;
  description : string;
  links : DatasetLinks;
  state : string;
  type : string;
  uri : string;
  qmi : option TitledLink;
  methodology : option TitledLink;
  contacts : option (list Contact);
  dimensions : option (list Dimension)
}.

Record ONSDatasetList := {
  count : Z;
  items : list ONSDataset;
  limit : Z;
  offset : Z;
  total_count : Z
}.

(** [Record<string, string>], given by its entries in [Object.entries]
    order. *)
Definition StringRecord := list (string * string).

(** The part of a version document that [getDownloadUrl] reads,
    [downloads?.csv?.href]; every level may be missing.  The source types the
    document as [any]; the model takes it to be an object (on a JSON null
    the source throws a TypeError at [latestVersion.downloads]). *)
Record Download := { dl_href : option string }.

Record Downloads := { csv : option Download }.

Record VersionDoc := { downloads : option Downloads }.

(** ** Errors, requests and the transport *)

(** The part of an axios error response that the client reads:
    [error.response.status] and [error.response.data?.message].  The message
    field is a string or absent; a field of another JSON type is outside the
    model. *)
Record ErrorBody := { body_message : option string }.

Record ErrorResponse := {
  status : Z;
  data : option ErrorBody
}.

(** A thrown value as the [catch] clauses see it: [message], and [response]
    when the value is an axios error that carries one.  A plain [new Error(m)]
    has no [response]. *)
Record JsError := {
  response : option ErrorResponse;
  message : string
}.

Definition new_Error (m : string) : JsError :=
  {| response := None; message := m |}.

(** A GET request: the url and the [params] option. *)
Record Request := {
  url : string;
  params : list (string * Z)
}.

Definition GET (u : string) : Request := {| url := u; params := [] |}.

Inductive Settled (A : Type) : Type :=
| Fulfilled (value : A)
| Rejected (reason : JsError).
Arguments Fulfilled {A} value.
Arguments Rejected {A} reason.

Record AxiosResponse (A : Type) := {
  resp_status : Z;
  resp_data : A
}.
Arguments resp_status {A} _.
Arguments resp_data {A} _.

(** The network below the interceptors: what a request settles to, given the
    requests this client has issued before it (oldest first). *)
Definition Adapter (A : Type) : Type :=
  list Request -> Request -> Settled (AxiosResponse A).

(** ** The effect monad *)

Record Trace := {
  requests : list Request;
  console : list string
}.

Definition start : Trace := {| requests := []; console := [] |}.

Definition Async (B : Type) : Type := Trace -> Settled B * Trace.

Definition ret {B : Type} (b : B) : Async B := fun t => (Fulfilled b, t).

Definition throw {B : Type} (e : JsError) : Async B := fun t => (Rejected e, t).

Definition bind {B C : Type} (m : Async B) (k : B -> Async C) : Async C :=
  fun t =>
    match m t with
    | (Fulfilled b, t') => k b t'
    | (Rejected e, t') => (Rejected e, t')
    end.

Definition try_catch {B : Type} (m : Async B) (handler : JsError -> Async B)
  : Async B :=
  fun t =>
    match m t with
    | (Fulfilled b, t') => (Fulfilled b, t')
    | (Rejected e, t') => handler e t'
    end.

Definition console_warn (line : string) : Async unit :=
  fun t => (Fulfilled tt,
            {| requests := requests t; console := (console t ++ [line])%list |}).

Declare Scope async_scope.
Delimit Scope async_scope with async.
Notation "x <- m ;; k" := (bind m (fun x => k))
  (at level 61, m at next level, right associativity) : async_scope.
Notation "m ;;; k" := (bind m (fun _ => k))
  (at level 61, right associativity) : async_scope.
Local Open Scope async_scope.

Definition result {B : Type} (m : Async B) : Settled B := fst (m start).
Definition issued {B : Type} (m : Async B) : list Request :=
  requests (snd (m start)).

(** ** The client *)

Module ONSApiClient.

(** [error.response.data?.message] *)
Definition server_message (r : ErrorResponse) : option string :=
  match data r with
  | Some body => body_message body
  | None => None
  end.

(** [error.response?.status] *)
Definition response_status (error : JsError) : option Z :=
  match response error with
  | Some r => Some (status r)
  | None => None
  end.

(** [error.response?.status === n] *)
Definition response_status_is (error : JsError) (n : Z) : bool :=
  match response_status error with
  | Some s => s =? n
  | None => false
  end.

(** The rejection handler of the response interceptor installed by the
    constructor.  It always throws; the value it throws is returned. *)
Definition interceptor (error : JsError) : JsError :=
  match response error with
  | Some r =>
      let status := status r in
      let message := Js.or_else (server_message r) (message error) in
      if status =? 404 then
        new_Error ("ONS API: Resource not found - " ++ message)
      else if status =? 400 then
        new_Error ("ONS API: Bad request - " ++ message)
      else if status =? 429 then
        new_Error ("ONS API: Rate limit exceeded - " ++ message)
      else if status =? 500 then
        new_Error ("ONS API: Server error - " ++ message)
      else
        new_Error ("ONS API: HTTP " ++ Js.Number_toString status ++ " - "
                   ++ message)
  | None => new_Error ("ONS API: Network error - " ++ message error)
  end.

(** [this.client.get(url, { params })]: the request is sent, and a
    rejection passes through the interceptor before the caller sees it. *)
Definition client_get {A : Type} (this : Adapter A) (req : Request)
  : Async (AxiosResponse A) :=
  fun t =>
    let t' := {| requests := (requests t ++ [req])%list;
                 console := console t |} in
    match this (requests t) req with
    | Fulfilled r => (Fulfilled r, t')
    | Rejected e => (Rejected (interceptor e), t')
    end.

Definition listDatasets (this : Adapter ONSDatasetList)
    (limit offset : option Z) : Async ONSDatasetList :=
  let limit := Js.default limit 20 in
  let offset := Js.default offset 0 in
  response <- client_get this
                {| url := "/datasets";
                   params := [("limit", limit); ("offset", offset)] |} ;;
  ret (resp_data response).

Definition getDataset (this : Adapter ONSDataset) (datasetId : string)
  : Async ONSDataset :=
  response <- client_get this (GET ("/datasets/" ++ datasetId)) ;;
  ret (resp_data response).

Definition fallback_warning : string :=
  "ONS API returned 500 for version 'latest', falling back to version '6'".

Definition version_url (datasetId edition version : string) : string :=
  "/datasets/" ++ datasetId ++ "/editions/" ++ edition ++ "/versions/"
  ++ version.

Definition getLatestVersion {A : Type} (this : Adapter A)
    (datasetId : string) (edition : option string) : Async A :=
  let edition := Js.default edition "time-series" in
  try_catch
    (response <- client_get this
                   (GET (version_url datasetId edition "latest")) ;;
     ret (resp_data response))
    (fun error =>
       if response_status_is error 500 then
         console_warn fallback_warning ;;;
         fallbackResponse <- client_get this
                               (GET (version_url datasetId edition "6")) ;;
         ret (resp_data fallbackResponse)
       else throw error).

(** [Object.entries(dimensions).map(([key, value]) => `${key}=${value}`)
     .join('&')] *)
Definition dimensionParams (dimensions : StringRecord) : string :=
  Js.join "&" (map (fun kv => fst kv ++ "=" ++ snd kv) dimensions).

Definition observations_url (datasetId edition version : string)
    (dimensions : StringRecord) : string :=
  version_url datasetId edition version ++ "/observations?"
  ++ dimensionParams dimensions.

(** The test of the [catch] clause of [getObservations]. *)
Definition is500Error (error : JsError) : bool :=
  response_status_is error 500
  || (Js.truthy (message error)
      && Js.includes (message error) "Server error"
      && Js.includes (message error) "500").

Definition getObservations {A : Type} (this : Adapter A)
    (datasetId : string) (edition version : option string)
    (dimensions : StringRecord) : Async A :=
  let edition := Js.default edition "time-series" in
  let version := Js.default version "latest" in
  try_catch
    (response <- client_get this
                   (GET (observations_url datasetId edition version
                           dimensions)) ;;
     ret (resp_data response))
    (fun error =>
       if String.eqb version "latest" && is500Error error then
         console_warn fallback_warning ;;;
         try_catch
           (fallbackResponse <- client_get this
                                  (GET (observations_url datasetId edition
                                          "6" dimensions)) ;;
            ret (resp_data fallbackResponse))
           (fun fallbackError => throw error)
       else throw error).

(** The predicate passed to [filter] in [searchDatasets]. *)
Definition matches (searchTerm : string) (dataset : ONSDataset) : bool :=
  Js.includes (Js.toLowerCase (title dataset)) searchTerm
  || Js.includes (Js.toLowerCase (description dataset)) searchTerm
  || Js.includes (Js.toLowerCase (id dataset)) searchTerm.

Definition searchDatasets (this : Adapter ONSDatasetList)
    (query : string) (limit : option Z) : Async ONSDatasetList :=
  let limit := Js.default limit 10 in
  allDatasets <- listDatasets this (Some 100) (Some 0) ;;
  let searchTerm := Js.toLowerCase query in
  let filteredItems :=
    Js.slice (filter (matches searchTerm) (items allDatasets)) 0 limit in
  ret {| count := Z.of_nat (List.length filteredItems);
         items := filteredItems;
         limit := limit;
         offset := 0;
         total_count := Z.of_nat (List.length filteredItems) |}.

Definition getDatasetDimensions (this : Adapter ONSDataset)
    (datasetId : string) : Async (list Dimension) :=
  dataset <- getDataset this datasetId ;;
  ret (match dimensions dataset with
       | Some ds => ds
       | None => []
       end).

Definition healthCheck {A : Type} (this : Adapter A) : Async bool :=
  try_catch
    (client_get this (GET "/datasets?limit=1") ;;; ret true)
    (fun _ => ret false).

(** [latestVersion.downloads?.csv?.href] *)
Definition csv_href (latestVersion : VersionDoc) : option string :=
  match downloads latestVersion with
  | Some d =>
      match csv d with
      | Some c => dl_href c
      | None => None
      end
  | None => None
  end.

Definition getDownloadUrl (this : Adapter VersionDoc) (datasetId : string)
    (edition : option string) : Async string :=
  let edition := Js.default edition "time-series" in
  latestVersion <- getLatestVersion this datasetId (Some edition) ;;
  ret (Js.or_else (csv_href latestVersion) "").

Definition getPopularDatasets : list string :=
  [ "cpih01";
    "regional-gdp-by-year";
    "wellbeing-local-authority";
    "uk-spending-on-cards";
    "weekly-deaths-region";
    "trade";
    "ageing-population-estimates";
    "wellbeing-quarterly";
    "traffic-camera-activity";
    "tax-benefits-statistics" ].

Definition getDimensionOptions {A : Type} (this : Adapter A)
    (datasetId dimensionId : string) : Async A :=
  response <- client_get this
                (GET ("/datasets/" ++ datasetId ++ "/dimensions/"
                      ++ dimensionId ++ "/options")) ;;
  ret (resp_data response).

End ONSApiClient.

(** ** The failure taxonomy of the specification *)

Module Taxonomy.

Inductive FailureKind : Type :=
| NotFound
| BadRequest
| RateLimited
| ServerError
| UnknownHttp
| NetworkError.

(** The status table as the specification words it: four named statuses,
    every other status of an error response is [UnknownHttp]. *)
Definition kind_of_status (s : Z) : FailureKind :=
  if s =? 404 then NotFound
  else if s =? 400 then BadRequest
  else if s =? 429 then RateLimited
  else if s =? 500 then ServerError
  else UnknownHttp.

(** The kind of a transport failure: no response at all is [NetworkError]. *)
Definition kind_of (e : JsError) : FailureKind :=
  match response e with
  | Some r => kind_of_status (status r)
  | None => NetworkError
  end.

(** How the client writes a kind into the failure it throws. *)
Definition kind_text (k : FailureKind) (s : Z) : string :=
  match k with
  | NotFound => "Resource not found"
  | BadRequest => "Bad request"
  | RateLimited => "Rate limit exceeded"
  | ServerError => "Server error"
  | UnknownHttp => "HTTP " ++ Js.Number_toString s
  | NetworkError => "Network error"
  end.

(** A normalized failure of kind [k] with message [m]. *)
Definition failure (k : FailureKind) (s : Z) (m : string) : JsError :=
  new_Error ("ONS API: " ++ kind_text k s ++ " - " ++ m).

End Taxonomy.

(** ** Running an operation from the initial trace *)

Definition trace (reqs : list Request) (lines : list string) : Trace :=
  {| requests := reqs; console := lines |}.

Ltac run_async :=
  unfold try_catch, bind, ret, throw, console_warn,
    ONSApiClient.client_get; cbn [requests console start app fst snd].

(** ** Searching *)

Module Search.

(** [s] and [q] are the same text up to the case of letters. *)
Definition same_up_to_case (s q : string) : Prop :=
  Js.toLowerCase s = Js.toLowerCase q.

(** [s] contains [q] as a case-insensitive substring: some stretch of [s] is
    [q] up to the case of letters. *)
Definition contains_ci (s q : string) : Prop :=
  exists pre mid post, s = pre ++ mid ++ post /\ same_up_to_case mid q.

(** A dataset is a hit for a query when its title, its description or its id
    contains the query as a case-insensitive substring. *)
Definition hit (query : string) (d : ONSDataset) : Prop :=
  contains_ci (title d) query
  \/ contains_ci (description d) query
  \/ contains_ci (id d) query.

(** The title, description and id of a dataset are text in the ASCII
    range. *)
Definition ascii_dataset (d : ONSDataset) : bool :=
  Js.is_ascii (title d) && Js.is_ascii (description d) && Js.is_ascii (id d).

(** The request that [searchDatasets] makes for its page. *)
Definition page_request : Request :=
  {| url := "/datasets"; params := [("limit", 100); ("offset", 0)] |}.

End Search.

(** ** Servers used in the examples *)

Module Servers.

(** A server on which the alias "latest" fails with [on_latest] and every
    other url answers 200 with [body]. *)
Definition latest_fails {A : Type} (on_latest : JsError) (body : A)
  : Adapter A :=
  fun _ req =>
    if Js.includes (url req) "/versions/latest"
    then Rejected on_latest
    else Fulfilled {| resp_status := 200; resp_data := body |}.

(** A server that answers every request with the same failure. *)
Definition always_fails {A : Type} (e : JsError) : Adapter A :=
  fun _ _ => Rejected e.

(** A server that answers every request 200 with [body]. *)
Definition always_ok {A : Type} (body : A) : Adapter A :=
  fun _ _ => Fulfilled {| resp_status := 200; resp_data := body |}.

(** axios' own text for a response with an error status. *)
Definition status_text (s : Z) : string :=
  "Request failed with status code " ++ Js.Number_toString s.

(** A 500 response without a body. *)
Definition bare_500 : JsError :=
  {| response := Some {| status := 500; data := None |};
     message := status_text 500 |}.

(** A 500 response whose body has a message. *)
Definition worded_500 : JsError :=
  {| response :=
       Some {| status := 500;
               data := Some {| body_message :=
                                 Some "Internal Server Error" |} |};
     message := status_text 500 |}.

(** A 502 response of a gateway that reports the failure behind it. *)
Definition gateway_502 : JsError :=
  {| response :=
       Some {| status := 502;
               data := Some {| body_message :=
                                 Some "Server error: upstream returned 500" |} |};
     message := status_text 502 |}.

(** A 500 response whose body has the message field, empty. *)
Definition empty_message_500 : JsError :=
  {| response := Some {| status := 500;
                         data := Some {| body_message := Some "" |} |};
     message := "Request failed with status code 500" |}.

Definition cpih_query : StringRecord :=
  [("time", "Aug-23"); ("geography", "K02000001");
   ("aggregate", "cpih1dim1A0")].

End Servers.

(** ** Example pages *)

Module Catalogue.

Definition link (h : string) : Href := {| href := h |}.

(** A dataset with the given id, title and description; a dataset document
    carries a [dimensions] array or not. *)
Definition dataset (i t d : string) (dims : option (list Dimension))
  : ONSDataset :=
  {| id := i; title := t; description := d;
     links := {| self := link ("/datasets/" ++ i);
                 latest_version := link ("/datasets/" ++ i ++ "/latest");
                 editions := link ("/datasets/" ++ i ++ "/editions") |};
     state := "published"; type := "filterable";
     uri := "/datasets/" ++ i;
     qmi := None; methodology := None; contacts := None;
     dimensions := dims |}.

Definition cpi : ONSDataset :=
  dataset "cpih01" "CPI Index" "Consumer prices" None.

Definition trade : ONSDataset :=
  dataset "trade" "Trade Balance" "Imports and exports" None.

Definition goods : ONSDataset :=
  dataset "uk-goods" "Goods by country" "UK trade in goods" None.

Definition time_dimension : Dimension :=
  {| dim_id := "time"; dim_name := "time"; dim_label := "Time";
     dim_links := {| options := link "/dimensions/time/options";
                     dl_self := link "/dimensions/time" |} |}.

Definition page_of (ds : list ONSDataset) (total : Z) : ONSDatasetList :=
  {| count := Z.of_nat (length ds); items := ds; limit := 100; offset := 0;
     total_count := total |}.

End Catalogue.

(** ** What crosses the boundary of the client *)

Module Boundary.

(** A failure in the taxonomy: a plain [Error] whose message is the text of
    some kind followed by a message. *)
Definition normalized (e : JsError) : Prop :=
  exists k s m, e = Taxonomy.failure k s m.

(** Every rejection of [m], from whatever trace it starts, is normalized. *)
Definition rejects_normalized {B : Type} (m : Async B) : Prop :=
  forall t e t', m t = (Rejected e, t') -> normalized e.

(** No key and no value of the entries contains "&" or "=". *)
Definition plain (s : string) : bool :=
  Js.lacks "&"%char s && Js.lacks "="%char s.

Definition plain_entries (l : StringRecord) : bool :=
  forallb (fun kv => plain (fst kv) && plain (snd kv)) l.

(** The list is the entries of a record in the order [Object.entries] gives
    them: the keys are distinct, and none is an integer index, so the order
    is the order of insertion. *)
Definition insertion_ordered (l : StringRecord) : Prop :=
  NoDup (map fst l)
  /\ Forall (fun kv => Js.starts_with_digit (fst kv) = false) l.

(** The warnings of a run from the initial trace. *)
Definition warned {B : Type} (m : Async B) : list string :=
  console (snd (m start)).

(** A version document with the given csv link. *)
Definition version_with (h : option string) : VersionDoc :=
  {| downloads := Some {| csv := Some {| dl_href := h |} |} |}.

End Boundary.

(** ** Strings *)

Section Strings.

Lemma append_assoc (a b c : string) : (a ++ b) ++ c = a ++ (b ++ c).
Proof.
  induction a as [|x a IH]; simpl; [reflexivity|].
  now rewrite IH.
Qed.

Lemma startsWith_spec (s p : string) :
  Js.startsWith s p = true <-> exists post, s = p ++ post.
Proof.
  revert s. induction p as [|c p IH]; intros s; simpl.
  - split; [intros _; now exists s | now destruct s].
  - destruct s as [|d s]; simpl.
    + split; [discriminate | intros [post H]; discriminate].
    + rewrite andb_true_iff, Ascii.eqb_eq, IH. split.
      * intros [-> [post ->]]. now exists post.
      * intros [post H]. injection H as -> ->. split; [reflexivity|].
        now exists post.
Qed.

Lemma includes_spec (s sub : string) :
  Js.includes s sub = true <-> exists pre post, s = pre ++ sub ++ post.
Proof.
  induction s as [|c s IH]; cbn [Js.includes].
  - rewrite orb_false_r, startsWith_spec. split.
    + intros [post H]. now exists "", post.
    + intros [pre [post H]]. destruct pre; simpl in H; [now exists post|].
      discriminate.
  - rewrite orb_true_iff, startsWith_spec, IH. split.
    + intros [[post H] | [pre [post H]]].
      * now exists "", post.
      * exists (String c pre), post. simpl. now rewrite H.
    + intros [pre [post H]]. destruct pre as [|x pre]; simpl in H.
      * left. now exists post.
      * right. injection H as _ H. now exists pre, post.
Qed.

Lemma truthy_spec (s : string) : Js.truthy s = true <-> s <> "".
Proof.
  destruct s; simpl; split; congruence || discriminate || reflexivity.
Qed.

End Strings.

(** ** The error normalizer *)

Section Normalizer.

Import ONSApiClient Taxonomy Servers.

(** What the interceptor throws is a plain [Error]: it has a message and no
    [response] property. *)
Lemma interceptor_plain (e : JsError) : response (interceptor e) = None.
Proof.
  unfold interceptor. destruct (response e) as [r|]; [|reflexivity].
  cbv zeta. repeat (destruct (_ =? _); [reflexivity|]). reflexivity.
Qed.

Lemma interceptor_status_hidden (e : JsError) (n : Z) :
  response_status_is (interceptor e) n = false.
Proof.
  unfold response_status_is, response_status.
  now rewrite interceptor_plain.
Qed.

(** The interceptor in terms of the taxonomy. *)
Lemma interceptor_failure (e : JsError) :
  interceptor e =
  match response e with
  | Some r => failure (kind_of_status (status r)) (status r)
                (Js.or_else (server_message r) (message e))
  | None => failure NetworkError 0 (message e)
  end.
Proof.
  unfold interceptor, failure, kind_of_status.
  destruct (response e) as [r|]; [|reflexivity]. cbv zeta.
  repeat (destruct (_ =? _); [reflexivity|]).
  cbn [kind_text]. now rewrite append_assoc.
Qed.

(** The text of a kind tells the kind: two failures of different kinds never
    carry the same kind text. *)
Lemma kind_text_inj (k k' : FailureKind) (s s' : Z) :
  kind_text k s = kind_text k' s' -> k = k'.
Proof.
  destruct k, k'; simpl; intros H; try reflexivity; discriminate H.
Qed.

(** C4, as stated, fails: a 500 response whose body carries the message field
    with the empty string is delivered with the transport's text, not with
    the field. *)
Lemma interceptor_empty_server_message :
  response empty_message_500
    = Some {| status := 500; data := Some {| body_message := Some "" |} |}
  /\ server_message {| status := 500;
                       data := Some {| body_message := Some "" |} |} = Some ""
  /\ interceptor empty_message_500
     = failure ServerError 500 "Request failed with status code 500"
  /\ interceptor empty_message_500 <> failure ServerError 500 "".
Proof.
  repeat split; try reflexivity. discriminate.
Qed.

(** C4 (amended): the failure delivered past the interceptor has the kind
    that the status table gives (404 NotFound, 400 BadRequest, 429
    RateLimited, 500 ServerError, any other status UnknownHttp, no response
    NetworkError); its message is the server's message field when that field
    is a string and is not empty, and the transport's error text when the
    field is absent or is the empty string. *)
Theorem interceptor_normalizes (e : JsError) :
  (response e = None ->
     interceptor e = failure NetworkError 0 (message e))
  /\ (forall r m,
        response e = Some r -> server_message r = Some m -> m <> "" ->
        interceptor e = failure (kind_of_status (status r)) (status r) m)
  /\ (forall r,
        response e = Some r ->
        server_message r = None \/ server_message r = Some "" ->
        interceptor e
        = failure (kind_of_status (status r)) (status r) (message e))
  /\ kind_of_status 404 = NotFound
  /\ kind_of_status 400 = BadRequest
  /\ kind_of_status 429 = RateLimited
  /\ kind_of_status 500 = ServerError
  /\ (forall s, s <> 404 -> s <> 400 -> s <> 429 -> s <> 500 ->
        kind_of_status s = UnknownHttp).
Proof.
  rewrite interceptor_failure.
  split; [intros ->; reflexivity|].
  split.
  { intros r m -> -> Hm. simpl.
    apply truthy_spec in Hm. now rewrite Hm. }
  split.
  { intros r -> [-> | ->]; reflexivity. }
  repeat (split; [reflexivity|]).
  intros s H1 H2 H3 H4. unfold kind_of_status.
  repeat match goal with
         | |- context [?a =? ?b] =>
             destruct (Z.eqb_spec a b); [contradiction|]
         end.
  reflexivity.
Qed.

Lemma interceptor_normalizes_witness :
  interceptor
    {| response := Some {| status := 404;
                           data := Some {| body_message :=
                                             Some "dataset not found" |} |};
       message := "Request failed with status code 404" |}
  = failure NotFound 404 "dataset not found".
Proof.
  apply (proj1 (proj2 (interceptor_normalizes _))
           {| status := 404;
              data := Some {| body_message := Some "dataset not found" |} |}
           "dataset not found").
  - reflexivity.
  - reflexivity.
  - discriminate.
Defined.

End Normalizer.

(** ** The fallback of getLatestVersion *)

Section LatestVersion.

Import ONSApiClient Taxonomy.

Context {A : Type} (this : Adapter A).
Variables (datasetId : string) (edition : option string).

Local Abbreviation primary :=
  (GET (version_url datasetId (Js.default edition "time-series") "latest")).

Lemma getLatestVersion_fulfilled (r : AxiosResponse A) :
  this [] primary = Fulfilled r ->
  getLatestVersion this datasetId edition start
  = (Fulfilled (resp_data r), trace [primary] []).
Proof.
  intros H. unfold getLatestVersion. run_async.
  now rewrite H.
Qed.

(** With the interceptor installed, the [catch] clause never sees a
    [response]: whatever the primary failure, it is thrown on after one
    request, and version 6 is not asked for. *)
Lemma getLatestVersion_rejected (e : JsError) :
  this [] primary = Rejected e ->
  getLatestVersion this datasetId edition start
  = (Rejected (interceptor e), trace [primary] []).
Proof.
  intros H. unfold getLatestVersion. run_async.
  rewrite H.
  now rewrite interceptor_status_hidden.
Qed.

End LatestVersion.

(** ** The fallback of getObservations *)

Section Observations.

Import ONSApiClient Taxonomy.

Context {A : Type} (this : Adapter A).
Variables (datasetId : string) (edition version : option string).
Variable dimensions : StringRecord.

Local Abbreviation primary :=
  (GET (observations_url datasetId (Js.default edition "time-series")
          (Js.default version "latest") dimensions)).

Local Abbreviation fallback :=
  (GET (observations_url datasetId (Js.default edition "time-series") "6"
          dimensions)).

Lemma getObservations_fulfilled (r : AxiosResponse A) :
  this [] primary = Fulfilled r ->
  getObservations this datasetId edition version dimensions start
  = (Fulfilled (resp_data r), trace [primary] []).
Proof.
  intros H. unfold getObservations. run_async.
  now rewrite H.
Qed.

Lemma getObservations_not_retried (e : JsError) :
  this [] primary = Rejected e ->
  String.eqb (Js.default version "latest") "latest"
  && is500Error (interceptor e) = false ->
  getObservations this datasetId edition version dimensions start
  = (Rejected (interceptor e), trace [primary] []).
Proof.
  intros H Hno. unfold getObservations. run_async.
  rewrite H. now rewrite Hno.
Qed.

Lemma getObservations_retried (e : JsError) :
  this [] primary = Rejected e ->
  Js.default version "latest" = "latest" ->
  is500Error (interceptor e) = true ->
  getObservations this datasetId edition version dimensions start
  = (match this [primary] fallback with
     | Fulfilled r => Fulfilled (resp_data r)
     | Rejected _ => Rejected (interceptor e)
     end,
     trace [primary; fallback] [fallback_warning]).
Proof.
  intros H Hv Hyes. unfold getObservations. run_async.
  rewrite H, Hyes.
  replace (String.eqb (Js.default version "latest") "latest") with true
    by (symmetry; apply String.eqb_eq; exact Hv).
  cbn [andb requests console app].
  destruct (this [primary] fallback); reflexivity.
Qed.

(** A pinned version is never replaced, whatever the failure. *)
Lemma getObservations_pinned (e : JsError) :
  this [] primary = Rejected e ->
  Js.default version "latest" <> "latest" ->
  getObservations this datasetId edition version dimensions start
  = (Rejected (interceptor e), trace [primary] []).
Proof.
  intros H Hv. apply getObservations_not_retried; [exact H|].
  apply String.eqb_neq in Hv. now rewrite Hv.
Qed.

End Observations.

(** ** When the fallback of getObservations fires *)

Section Trigger.

Import ONSApiClient Taxonomy.

(** On a failure that went through the interceptor, the test looks at the
    text of the message only. *)
Lemma is500Error_interceptor (e : JsError) :
  is500Error (interceptor e)
  = Js.includes (message (interceptor e)) "Server error"
    && Js.includes (message (interceptor e)) "500".
Proof.
  unfold is500Error. rewrite interceptor_status_hidden.
  rewrite interceptor_failure.
  destruct (response e) as [r|]; reflexivity.
Qed.

(** For a 500 response the test succeeds exactly when the delivered message
    text happens to contain "500". *)
Lemma is500Error_on_500 (e : JsError) (r : ErrorResponse) :
  response e = Some r -> status r = 500 ->
  is500Error (interceptor e)
  = Js.includes (Js.or_else (server_message r) (message e)) "500".
Proof.
  intros Hr Hs. rewrite is500Error_interceptor, interceptor_failure, Hr, Hs.
  reflexivity.
Qed.

Lemma observations_url_shape (datasetId edition version : string)
    (dimensions : StringRecord) :
  observations_url datasetId edition version dimensions
  = ("/datasets/" ++ datasetId ++ "/editions/" ++ edition ++ "/versions/")
    ++ version ++ "/observations?"
    ++ Js.join "&" (map (fun kv => fst kv ++ "=" ++ snd kv) dimensions).
Proof.
  unfold observations_url, version_url, dimensionParams.
  now rewrite !append_assoc.
Qed.

End Trigger.

(** ** The fallback policy on concrete servers *)

Section Policy.

Import ONSApiClient Taxonomy Servers.

(** C1: on a server where "latest" answers 500 and version 6 answers 200,
    getLatestVersion issues the single request for "latest" and rejects with
    the normalized 500 failure; version 6, which would have answered, is
    never requested. *)
Theorem getLatestVersion_500_not_retried :
  latest_fails bare_500 "version 6"
    [GET "/datasets/cpih01/editions/time-series/versions/latest"]
    (GET "/datasets/cpih01/editions/time-series/versions/6")
  = Fulfilled {| resp_status := 200; resp_data := "version 6" |}
  /\ result (getLatestVersion (latest_fails bare_500 "version 6")
               "cpih01" None)
     = Rejected (failure ServerError 500
                   "Request failed with status code 500")
  /\ issued (getLatestVersion (latest_fails bare_500 "version 6")
               "cpih01" None)
     = [GET "/datasets/cpih01/editions/time-series/versions/latest"].
Proof.
  repeat split; vm_compute; reflexivity.
Qed.

(** C2: on a server where "latest" answers 500 with a worded body and
    version 6 answers 200, getObservations issues the single request for
    "latest" and rejects with the normalized 500 failure; the fallback is not
    attempted. *)
Theorem getObservations_worded_500_not_retried :
  kind_of worded_500 = ServerError
  /\ latest_fails worded_500 "observations of version 6"
       [GET (observations_url "cpih01" "time-series" "latest" cpih_query)]
       (GET (observations_url "cpih01" "time-series" "6" cpih_query))
     = Fulfilled {| resp_status := 200;
                    resp_data := "observations of version 6" |}
  /\ result (getObservations
               (latest_fails worded_500 "observations of version 6")
               "cpih01" None None cpih_query)
     = Rejected (failure ServerError 500 "Internal Server Error")
  /\ issued (getObservations
               (latest_fails worded_500 "observations of version 6")
               "cpih01" None None cpih_query)
     = [GET ("/datasets/cpih01/editions/time-series/versions/latest"
             ++ "/observations?"
             ++ "time=Aug-23&geography=K02000001&aggregate=cpih1dim1A0")].
Proof.
  repeat split; vm_compute; reflexivity.
Qed.

(** C3: on a server where "latest" answers 502 with a body that quotes a
    server error 500, the primary failure of getObservations has kind
    UnknownHttp, and yet a second request, for version 6, is issued and its
    body is returned. *)
Theorem getObservations_502_retried :
  kind_of gateway_502 = UnknownHttp
  /\ result (getObservations
               (latest_fails gateway_502 "observations of version 6")
               "cpih01" None None cpih_query)
     = Fulfilled "observations of version 6"
  /\ issued (getObservations
               (latest_fails gateway_502 "observations of version 6")
               "cpih01" None None cpih_query)
     = [GET (observations_url "cpih01" "time-series" "latest" cpih_query);
        GET (observations_url "cpih01" "time-series" "6" cpih_query)].
Proof.
  repeat split; vm_compute; reflexivity.
Qed.

(** C5: when getObservations on "latest" falls back, two requests are issued;
    they have the same dataset id, the same edition and the same serialized
    dimension parameters, and differ in the version segment only, "latest"
    in the first and "6" in the second. *)
Theorem getObservations_fallback_keeps_query {A : Type} (this : Adapter A)
    (datasetId : string) (edition version : option string)
    (dimensions : StringRecord) (e : JsError) :
  Js.default version "latest" = "latest" ->
  this [] (GET (observations_url datasetId
                  (Js.default edition "time-series") "latest" dimensions))
  = Rejected e ->
  is500Error (interceptor e) = true ->
  let head := "/datasets/" ++ datasetId ++ "/editions/"
              ++ Js.default edition "time-series" ++ "/versions/" in
  let query :=
    Js.join "&" (map (fun kv => fst kv ++ "=" ++ snd kv) dimensions) in
  issued (getObservations this datasetId edition version dimensions)
  = [GET (head ++ "latest" ++ "/observations?" ++ query);
     GET (head ++ "6" ++ "/observations?" ++ query)].
Proof.
  intros Hv Hp Hyes head query. unfold issued.
  rewrite (getObservations_retried this datasetId edition version dimensions e).
  - cbn [snd trace requests]. rewrite Hv.
    now rewrite !observations_url_shape.
  - now rewrite Hv.
  - exact Hv.
  - exact Hyes.
Qed.

Lemma getObservations_fallback_keeps_query_witness :
  issued (getObservations (always_fails (A:=string) bare_500)
            "cpih01" (Some "time-series") (Some "latest") cpih_query)
  = [GET ("/datasets/cpih01/editions/time-series/versions/" ++ "latest"
          ++ "/observations?"
          ++ "time=Aug-23&geography=K02000001&aggregate=cpih1dim1A0");
     GET ("/datasets/cpih01/editions/time-series/versions/" ++ "6"
          ++ "/observations?"
          ++ "time=Aug-23&geography=K02000001&aggregate=cpih1dim1A0")].
Proof.
  apply (getObservations_fallback_keeps_query
           (always_fails bare_500) "cpih01" (Some "time-series")
           (Some "latest") cpih_query bare_500).
  - reflexivity.
  - reflexivity.
  - vm_compute. reflexivity.
Defined.

End Policy.

Section SearchFacts.

Import ONSApiClient Search.

Lemma toLowerCase_app (a b : string) :
  Js.toLowerCase (a ++ b) = Js.toLowerCase a ++ Js.toLowerCase b.
Proof.
  induction a as [|c a IH]; simpl; [reflexivity|]. now rewrite IH.
Qed.

Lemma toLowerCase_split (s a b : string) :
  Js.toLowerCase s = a ++ b ->
  exists s1 s2,
    s = s1 ++ s2 /\ Js.toLowerCase s1 = a /\ Js.toLowerCase s2 = b.
Proof.
  revert s. induction a as [|c a IH]; intros s H.
  - exists "", s. now repeat split.
  - destruct s as [|d s]; simpl in H; [discriminate|].
    injection H as Hc H. destruct (IH s H) as [s1 [s2 [-> [H1 H2]]]].
    exists (String d s1), s2. simpl. now rewrite Hc, H1, H2.
Qed.

Lemma toLowerCase_idem (s : string) :
  Js.toLowerCase (Js.toLowerCase s) = Js.toLowerCase s.
Proof.
  induction s as [|c s IH]; simpl; [reflexivity|]. rewrite IH. f_equal.
  destruct c as [[] [] [] [] [] [] [] []]; reflexivity.
Qed.

(** The test of the source, lower-casing both sides and looking for a
    substring, decides case-insensitive containment. *)
Lemma includes_lower_spec (s q : string) :
  Js.includes (Js.toLowerCase s) (Js.toLowerCase q) = true
  <-> contains_ci s q.
Proof.
  rewrite includes_spec. unfold contains_ci, same_up_to_case. split.
  - intros [pre [post H]].
    destruct (toLowerCase_split _ _ _ H) as [s1 [s' [-> [H1 H']]]].
    destruct (toLowerCase_split _ _ _ H') as [s2 [s3 [-> [H2 H3]]]].
    now exists s1, s2, s3.
  - intros [pre [mid [post [-> H]]]].
    exists (Js.toLowerCase pre), (Js.toLowerCase post).
    now rewrite !toLowerCase_app, H.
Qed.

Lemma matches_spec (query : string) (d : ONSDataset) :
  matches (Js.toLowerCase query) d = true <-> hit query d.
Proof.
  unfold matches, hit. rewrite !orb_true_iff, !includes_lower_spec. tauto.
Qed.

Lemma slice_from_0 {B : Type} (l : list B) (n : Z) :
  0 <= n -> Js.slice l 0 n = firstn (Z.to_nat n) l.
Proof.
  intros Hn. unfold Js.slice, Js.relative_index.
  assert (Hlen : 0 <= Z.of_nat (length l)) by lia.
  replace (n <? 0) with false by (symmetry; apply Z.ltb_ge; lia).
  replace (0 <? 0) with false by reflexivity.
  rewrite (Z.min_l 0) by lia. cbn [Z.to_nat skipn].
  rewrite Z.sub_0_r.
  destruct (Z.le_ge_cases n (Z.of_nat (length l))) as [Hle|Hge].
  - rewrite Z.min_l by lia. now rewrite Z.max_l by lia.
  - rewrite Z.min_r by lia. rewrite Z.max_l by lia. rewrite Nat2Z.id.
    rewrite firstn_all, firstn_all2 by lia. reflexivity.
Qed.

Lemma searchDatasets_fulfilled (this : Adapter ONSDatasetList)
    (query : string) (lim : option Z) (r : AxiosResponse ONSDatasetList) :
  this [] page_request = Fulfilled r ->
  searchDatasets this query lim start
  = (let found :=
       Js.slice (filter (matches (Js.toLowerCase query))
                   (items (resp_data r))) 0 (Js.default lim 10) in
     Fulfilled {| count := Z.of_nat (length found);
                  items := found;
                  limit := Js.default lim 10;
                  offset := 0;
                  total_count := Z.of_nat (length found) |},
     trace [page_request] []).
Proof.
  intros H. unfold searchDatasets, listDatasets. run_async.
  cbn [Js.default]. fold page_request. now rewrite H.
Qed.

Lemma searchDatasets_rejected (this : Adapter ONSDatasetList)
    (query : string) (lim : option Z) (e : JsError) :
  this [] page_request = Rejected e ->
  searchDatasets this query lim start
  = (Rejected (interceptor e), trace [page_request] []).
Proof.
  intros H. unfold searchDatasets, listDatasets. run_async.
  cbn [Js.default]. fold page_request. now rewrite H.
Qed.

End SearchFacts.

Section SearchClaims.

Import ONSApiClient Search Servers Catalogue.

(** The example of the specification: on a page with "CPI Index" and "Trade
    Balance", searching "trade" in any case returns "Trade Balance" only. *)
Example search_trade_any_case :
  result (searchDatasets (always_ok (page_of [cpi; trade] 2)) "tRaDe" None)
  = Fulfilled {| count := 1; items := [trade]; limit := 10; offset := 0;
                 total_count := 1 |}.
Proof. vm_compute. reflexivity. Qed.




(** C7: every page that searchDatasets returns for a limit that is not
    negative has at most [limit] items, and its item count is at most its
    [count], which is at most its [total_count]. *)
Theorem searchDatasets_page_invariant (this : Adapter ONSDatasetList)
    (query : string) (lim : option Z) (page : ONSDatasetList) :
  0 <= Js.default lim 10 ->
  result (searchDatasets this query lim) = Fulfilled page ->
  limit page = Js.default lim 10
  /\ Z.of_nat (length (items page)) <= limit page
  /\ Z.of_nat (length (items page)) <= count page <= total_count page.
Proof.
  intros Hlim Hres. unfold result in Hres.
  destruct (this [] page_request) as [r|e] eqn:Hr.
  - rewrite (searchDatasets_fulfilled this query lim r Hr) in Hres.
    cbv zeta in Hres. cbn [fst] in Hres. injection Hres as <-.
    cbn [limit items count total_count].
    rewrite slice_from_0 by exact Hlim.
    pose proof (firstn_le_length (Z.to_nat (Js.default lim 10))
                  (filter (matches (Js.toLowerCase query))
                     (items (resp_data r)))) as Hle.
    repeat split; lia.
  - rewrite (searchDatasets_rejected this query lim e Hr) in Hres.
    discriminate Hres.
Qed.

Lemma searchDatasets_page_invariant_witness :
  limit {| count := 2; items := [trade; goods]; limit := 5; offset := 0;
           total_count := 2 |}
  = Js.default (Some 5) 10
  /\ Z.of_nat (length [trade; goods]) <= 5
  /\ Z.of_nat (length [trade; goods]) <= 2 <= 2.
Proof.
  apply (searchDatasets_page_invariant
           (always_ok (page_of [cpi; trade; goods] 337)) "trade" (Some 5)
           {| count := 2; items := [trade; goods]; limit := 5; offset := 0;
              total_count := 2 |}).
  - simpl. lia.
  - vm_compute. reflexivity.
Defined.

(** C10: every page that searchDatasets returns has offset 0, and its
    [count] and [total_count] both equal the number of items it carries,
    which are the hits of the fetched page after the cut to the limit;
    neither field takes the totals of the fetched page or the number of hits
    before the cut. *)
Theorem searchDatasets_counts (this : Adapter ONSDatasetList)
    (query : string) (lim : option Z) (page : ONSDatasetList) :
  result (searchDatasets this query lim) = Fulfilled page ->
  offset page = 0
  /\ count page = Z.of_nat (length (items page))
  /\ total_count page = Z.of_nat (length (items page))
  /\ exists r,
       this [] page_request = Fulfilled r
       /\ items page
          = Js.slice (filter (matches (Js.toLowerCase query))
                        (items (resp_data r))) 0 (Js.default lim 10).
Proof.
  intros Hres. unfold result in Hres.
  destruct (this [] page_request) as [r|e] eqn:Hr.
  - rewrite (searchDatasets_fulfilled this query lim r Hr) in Hres.
    cbv zeta in Hres. cbn [fst] in Hres. injection Hres as <-.
    cbn [offset items count total_count].
    repeat split. now exists r.
  - rewrite (searchDatasets_rejected this query lim e Hr) in Hres.
    discriminate Hres.
Qed.

Lemma searchDatasets_counts_witness :
  offset {| count := 1; items := [trade]; limit := 1; offset := 0;
            total_count := 1 |} = 0
  /\ count {| count := 1; items := [trade]; limit := 1; offset := 0;
              total_count := 1 |} = Z.of_nat (length [trade])
  /\ total_count {| count := 1; items := [trade]; limit := 1; offset := 0;
                    total_count := 1 |} = Z.of_nat (length [trade])
  /\ exists r,
       always_ok (page_of [cpi; trade; goods] 337) [] page_request
       = Fulfilled r
       /\ [trade]
          = Js.slice (filter (matches (Js.toLowerCase "trade"))
                        (items (resp_data r))) 0 (Js.default (Some 1) 10).
Proof.
  apply (searchDatasets_counts
           (always_ok (page_of [cpi; trade; goods] 337)) "trade" (Some 1)
           {| count := 1; items := [trade]; limit := 1; offset := 0;
              total_count := 1 |}).
  vm_compute. reflexivity.
Defined.

End SearchClaims.

(** ** Health check and dimensions *)

Section Derived.

Import ONSApiClient Taxonomy Servers Catalogue.

(** Every kind of the taxonomy is the kind of some transport failure. *)
Lemma every_kind_arises (k : FailureKind) : exists e, kind_of e = k.
Proof.
  destruct k;
    [ exists {| response := Some {| status := 404; data := None |};
                message := status_text 404 |}
    | exists {| response := Some {| status := 400; data := None |};
                message := status_text 400 |}
    | exists {| response := Some {| status := 429; data := None |};
                message := status_text 429 |}
    | exists bare_500
    | exists gateway_502
    | exists {| response := None; message := "connect ECONNREFUSED" |} ];
    reflexivity.
Qed.

(** C8: healthCheck makes one minimal list request and never rejects: it
    resolves to [false] when the request fails, whatever the failure, and to
    [true] exactly when the request succeeds. *)
Theorem healthCheck_collapses {A : Type} (this : Adapter A) :
  result (healthCheck this)
  = Fulfilled (match this [] (GET "/datasets?limit=1") with
               | Fulfilled _ => true
               | Rejected _ => false
               end)
  /\ issued (healthCheck this) = [GET "/datasets?limit=1"]
  /\ (forall e,
        this [] (GET "/datasets?limit=1") = Rejected e ->
        result (healthCheck this) = Fulfilled false)
  /\ (result (healthCheck this) = Fulfilled true
      <-> exists r, this [] (GET "/datasets?limit=1") = Fulfilled r)
  /\ (forall e, result (healthCheck this) <> Rejected e).
Proof.
  unfold result, issued, healthCheck. run_async.
  destruct (this [] (GET "/datasets?limit=1")) as [r|e0]; cbn [fst snd requests].
  - repeat split; try reflexivity; try discriminate.
    intros _. now exists r.
  - repeat split; try reflexivity; try discriminate.
    intros [r Hr]. discriminate Hr.
Qed.

Lemma healthCheck_collapses_witness :
  result (healthCheck (always_fails (A:=unit) gateway_502))
  = Fulfilled false.
Proof.
  apply (proj1 (proj2 (proj2 (healthCheck_collapses
                                (always_fails (A:=unit) gateway_502))))
           gateway_502).
  reflexivity.
Defined.

(** C9: when the fetched dataset has no [dimensions] field,
    getDatasetDimensions resolves to the empty sequence; when the field is
    there, it resolves to that list unchanged. *)
Theorem getDatasetDimensions_defaults (this : Adapter ONSDataset)
    (datasetId : string) (r : AxiosResponse ONSDataset) :
  this [] (GET ("/datasets/" ++ datasetId)) = Fulfilled r ->
  (dimensions (resp_data r) = None ->
   result (getDatasetDimensions this datasetId) = Fulfilled [])
  /\ (forall ds, dimensions (resp_data r) = Some ds ->
        result (getDatasetDimensions this datasetId) = Fulfilled ds).
Proof.
  intros Hr. unfold result, getDatasetDimensions, getDataset. run_async.
  rewrite Hr. cbn [fst]. split.
  - now intros ->.
  - now intros ds ->.
Qed.

Lemma getDatasetDimensions_defaults_witness :
  result (getDatasetDimensions (always_ok cpi) "cpih01") = Fulfilled []
  /\ result (getDatasetDimensions
               (always_ok (dataset "trade" "Trade Balance" "Imports"
                             (Some [time_dimension]))) "trade")
     = Fulfilled [time_dimension].
Proof.
  split.
  - apply (proj1 (getDatasetDimensions_defaults (always_ok cpi) "cpih01"
                    {| resp_status := 200; resp_data := cpi |}
                    eq_refl)).
    reflexivity.
  - apply (proj2 (getDatasetDimensions_defaults
                    (always_ok (dataset "trade" "Trade Balance" "Imports"
                                  (Some [time_dimension]))) "trade"
                    {| resp_status := 200;
                       resp_data := dataset "trade" "Trade Balance" "Imports"
                                      (Some [time_dimension]) |}
                    eq_refl)).
    reflexivity.
Defined.

End Derived.

(** ** Failures at the boundary *)

Section BoundaryFacts.

Import ONSApiClient Taxonomy Boundary Servers.

Lemma failure_kind_inj (k k' : FailureKind) (s s' : Z) (m m' : string) :
  failure k s m = failure k' s' m' -> k = k'.
Proof.
  unfold failure, new_Error.
  destruct k, k'; simpl; intros H; try reflexivity; discriminate H.
Qed.

Lemma interceptor_normalized (e : JsError) : normalized (interceptor e).
Proof.
  rewrite interceptor_failure. unfold normalized.
  destruct (response e) as [r|]; eauto.
Qed.

Lemma client_get_rejects {A : Type} (this : Adapter A) (req : Request) :
  rejects_normalized (client_get this req).
Proof.
  intros t e t' H. unfold client_get in H.
  destruct (this (requests t) req) as [r|e0]; [discriminate H|].
  injection H as <- _. apply interceptor_normalized.
Qed.

Lemma ret_rejects {B : Type} (b : B) : rejects_normalized (ret b).
Proof. intros t e t' H. discriminate H. Qed.

Lemma console_warn_rejects (line : string) :
  rejects_normalized (console_warn line).
Proof. intros t e t' H. discriminate H. Qed.

Lemma throw_rejects {B : Type} (e : JsError) :
  normalized e -> rejects_normalized (throw (B:=B) e).
Proof. intros He t e' t' H. injection H as <- _. exact He. Qed.

Lemma bind_rejects {B C : Type} (m : Async B) (k : B -> Async C) :
  rejects_normalized m -> (forall b, rejects_normalized (k b)) ->
  rejects_normalized (bind m k).
Proof.
  intros Hm Hk t e t' H. unfold bind in H.
  destruct (m t) as [[b|e0] t0] eqn:E.
  - exact (Hk b t0 e t' H).
  - injection H as <- _. exact (Hm t e0 t0 E).
Qed.

Lemma try_catch_rejects {B : Type} (m : Async B) (h : JsError -> Async B) :
  rejects_normalized m ->
  (forall e, normalized e -> rejects_normalized (h e)) ->
  rejects_normalized (try_catch m h).
Proof.
  intros Hm Hh t e t' H. unfold try_catch in H.
  destruct (m t) as [[b|e0] t0] eqn:E; [discriminate H|].
  exact (Hh e0 (Hm t e0 t0 E) t0 e t' H).
Qed.

Create HintDb boundary.

#[local] Hint Resolve client_get_rejects ret_rejects console_warn_rejects
  throw_rejects
  interceptor_normalized : boundary.

Ltac rejects :=
  repeat first
    [ apply bind_rejects; [|intros ?]
    | apply try_catch_rejects; [|intros ? ?]
    | match goal with |- rejects_normalized (if ?c then _ else _) =>
        destruct c end
    | solve [auto with boundary] ].

(** When the bodies of the answers have the shapes the operations declare
    (any body for getLatestVersion, getObservations and getDimensionOptions,
    which only hand it on), then whatever else the server does and from
    whatever trace the call starts, a rejection of an operation of the client
    is a failure of the taxonomy: a plain [Error] without [response], its
    message made of the text of a kind and a message.  The raw axios error
    never reaches the caller. *)
Theorem operations_reject_normalized :
  (forall this lim off, rejects_normalized (listDatasets this lim off))
  /\ (forall this d, rejects_normalized (getDataset this d))
  /\ (forall A (this : Adapter A) d ed,
        rejects_normalized (getLatestVersion this d ed))
  /\ (forall A (this : Adapter A) d ed v dims,
        rejects_normalized (getObservations this d ed v dims))
  /\ (forall this d ed, rejects_normalized (getDownloadUrl this d ed))
  /\ (forall this q lim, rejects_normalized (searchDatasets this q lim))
  /\ (forall this d, rejects_normalized (getDatasetDimensions this d))
  /\ (forall A (this : Adapter A) d dim,
        rejects_normalized (getDimensionOptions this d dim)).
Proof.
  repeat split; intros;
    unfold listDatasets, getDataset, getLatestVersion, getObservations,
      getDownloadUrl, searchDatasets, getDatasetDimensions,
      getDimensionOptions, getLatestVersion, listDatasets, getDataset;
    cbv zeta; rejects.
Qed.

(** The delivered failure tells the kind: two transport failures that the
    interceptor delivers as the same [Error] have the same kind. *)
Theorem interceptor_kind_recoverable (e1 e2 : JsError) :
  interceptor e1 = interceptor e2 -> kind_of e1 = kind_of e2.
Proof.
  rewrite !interceptor_failure. unfold kind_of.
  destruct (response e1) as [r1|], (response e2) as [r2|];
    intros H; apply failure_kind_inj in H; congruence.
Qed.

Lemma interceptor_kind_recoverable_witness :
  kind_of bare_500
  = kind_of {| response :=
                 Some {| status := 500;
                         data := Some {| body_message :=
                                           Some (status_text 500) |} |};
               message := "Network Error" |}.
Proof.
  apply (interceptor_kind_recoverable bare_500
           {| response :=
                Some {| status := 500;
                        data := Some {| body_message :=
                                          Some (status_text 500) |} |};
              message := "Network Error" |}).
  reflexivity.
Defined.

End BoundaryFacts.

(** ** Requests and outcomes of the version operations *)

Section VersionOperations.

Import ONSApiClient Taxonomy Boundary Servers.

Lemma append_inj_l (a x y : string) : a ++ x = a ++ y -> x = y.
Proof.
  induction a as [|c a IH]; simpl; intros H; [exact H|].
  injection H as H. exact (IH H).
Qed.

(** getLatestVersion issues one request, for "latest", whatever the server
    answers: it resolves to the body of that answer or rejects with its
    normalized failure, and it never asks for version 6 nor logs the
    fallback warning. *)
Theorem getLatestVersion_single_request {A : Type} (this : Adapter A)
    (datasetId : string) (edition : option string) :
  issued (getLatestVersion this datasetId edition)
  = [GET ("/datasets/" ++ datasetId ++ "/editions/"
          ++ Js.default edition "time-series" ++ "/versions/latest")]
  /\ warned (getLatestVersion this datasetId edition) = []
  /\ result (getLatestVersion this datasetId edition)
     = match this [] (GET ("/datasets/" ++ datasetId ++ "/editions/"
                           ++ Js.default edition "time-series"
                           ++ "/versions/latest")) with
       | Fulfilled r => Fulfilled (resp_data r)
       | Rejected e => Rejected (interceptor e)
       end.
Proof.
  unfold issued, warned, result.
  change ("/datasets/" ++ datasetId ++ "/editions/"
          ++ Js.default edition "time-series" ++ "/versions/latest")
    with (version_url datasetId (Js.default edition "time-series") "latest").
  destruct (this [] (GET (version_url datasetId
                            (Js.default edition "time-series") "latest")))
    as [r|e] eqn:H.
  - rewrite (getLatestVersion_fulfilled this datasetId edition r H).
    now repeat split.
  - rewrite (getLatestVersion_rejected this datasetId edition e H).
    now repeat split.
Qed.

Lemma getDownloadUrl_run (this : Adapter VersionDoc) (datasetId : string)
    (edition : option string) :
  getDownloadUrl this datasetId edition start
  = (match this [] (GET (version_url datasetId
                           (Js.default edition "time-series") "latest")) with
     | Fulfilled r => Fulfilled (Js.or_else (csv_href (resp_data r)) "")
     | Rejected e => Rejected (interceptor e)
     end,
     trace [GET (version_url datasetId (Js.default edition "time-series")
                   "latest")] []).
Proof.
  unfold getDownloadUrl, bind. cbv zeta.
  destruct (this [] (GET (version_url datasetId
                            (Js.default edition "time-series") "latest")))
    as [r|e] eqn:H.
  - now rewrite (getLatestVersion_fulfilled this datasetId
                   (Some (Js.default edition "time-series")) r H).
  - now rewrite (getLatestVersion_rejected this datasetId
                   (Some (Js.default edition "time-series")) e H).
Qed.



(** getDownloadUrl issues the one request of getLatestVersion and nothing
    else: when "latest" fails, also with a 500, it rejects with that
    normalized failure and version 6 is not asked for. *)
Theorem getDownloadUrl_never_retries (this : Adapter VersionDoc)
    (datasetId : string) (edition : option string) (e : JsError) :
  this [] (GET ("/datasets/" ++ datasetId ++ "/editions/"
                ++ Js.default edition "time-series" ++ "/versions/latest"))
  = Rejected e ->
  result (getDownloadUrl this datasetId edition) = Rejected (interceptor e)
  /\ issued (getDownloadUrl this datasetId edition)
     = issued (getLatestVersion this datasetId edition)
  /\ issued (getDownloadUrl this datasetId edition)
     = [GET ("/datasets/" ++ datasetId ++ "/editions/"
             ++ Js.default edition "time-series" ++ "/versions/latest")].
Proof.
  intros H.
  assert (H' : this [] (GET (version_url datasetId
                               (Js.default edition "time-series") "latest"))
               = Rejected e) by exact H.
  unfold result, issued. rewrite getDownloadUrl_run.
  rewrite (getLatestVersion_rejected this datasetId edition e H'), H'.
  now repeat split.
Qed.

Lemma getDownloadUrl_never_retries_witness :
  result (getDownloadUrl
            (latest_fails bare_500 (version_with (Some "v6.csv")))
            "cpih01" None)
  = Rejected (interceptor bare_500).
Proof.
  apply (proj1 (getDownloadUrl_never_retries
                  (latest_fails bare_500 (version_with (Some "v6.csv")))
                  "cpih01" None bare_500 eq_refl)).
Defined.

End VersionOperations.

(** ** Requests and outcomes of getObservations *)

Section ObservationRuns.

Import ONSApiClient Taxonomy Boundary Servers.

Context {A : Type} (this : Adapter A).
Variables (datasetId : string) (edition version : option string).
Variable dimensions : StringRecord.

Local Abbreviation primary :=
  (GET (observations_url datasetId (Js.default edition "time-series")
          (Js.default version "latest") dimensions)).

Local Abbreviation fallback :=
  (GET (observations_url datasetId (Js.default edition "time-series") "6"
          dimensions)).

(** getObservations issues one request or two, never more: the first is the
    request for the version asked for; a second one is issued only when that
    version is "latest", it is the request for version 6, and the fallback
    warning is logged exactly then. *)
Theorem getObservations_request_bound :
  (issued (getObservations this datasetId edition version dimensions)
   = [primary]
   /\ warned (getObservations this datasetId edition version dimensions) = [])
  \/ (Js.default version "latest" = "latest"
      /\ issued (getObservations this datasetId edition version dimensions)
         = [primary; fallback]
      /\ warned (getObservations this datasetId edition version dimensions)
         = [fallback_warning]).
Proof.
  unfold issued, warned.
  destruct (this [] primary) as [r|e] eqn:H.
  - left. now rewrite (getObservations_fulfilled _ _ _ _ _ r H).
  - destruct (String.eqb (Js.default version "latest") "latest"
              && is500Error (interceptor e)) eqn:Hgo.
    + apply andb_true_iff in Hgo. destruct Hgo as [Hv Hyes].
      apply String.eqb_eq in Hv. right.
      now rewrite (getObservations_retried _ _ _ _ _ e H Hv Hyes).
    + left. now rewrite (getObservations_not_retried _ _ _ _ _ e H Hgo).
Qed.

(** When the primary request of getObservations succeeds, its body is the
    result and nothing else is requested, whatever the version. *)
Theorem getObservations_success_is_final (r : AxiosResponse A) :
  this [] primary = Fulfilled r ->
  result (getObservations this datasetId edition version dimensions)
  = Fulfilled (resp_data r)
  /\ issued (getObservations this datasetId edition version dimensions)
     = [primary].
Proof.
  intros H. unfold result, issued.
  now rewrite (getObservations_fulfilled _ _ _ _ _ r H).
Qed.

(** With a version other than "latest", getObservations never falls back:
    one request, and a failure, a 500 included, propagates normalized. *)
Theorem getObservations_pinned_single_request (e : JsError) :
  Js.default version "latest" <> "latest" ->
  this [] primary = Rejected e ->
  result (getObservations this datasetId edition version dimensions)
  = Rejected (interceptor e)
  /\ issued (getObservations this datasetId edition version dimensions)
     = [primary]
  /\ warned (getObservations this datasetId edition version dimensions) = [].
Proof.
  intros Hv H. unfold result, issued, warned.
  now rewrite (getObservations_pinned _ _ _ _ _ e H Hv).
Qed.

(** On "latest", whether getObservations falls back is decided by the text
    of the delivered failure alone: a second request is issued exactly when
    that text contains both "Server error" and "500". *)
Theorem getObservations_fallback_iff (e : JsError) :
  Js.default version "latest" = "latest" ->
  this [] primary = Rejected e ->
  issued (getObservations this datasetId edition version dimensions)
  = [primary; fallback]
  <-> Js.includes (message (interceptor e)) "Server error" = true
      /\ Js.includes (message (interceptor e)) "500" = true.
Proof.
  intros Hv H. rewrite <- andb_true_iff, <- is500Error_interceptor.
  unfold issued.
  destruct (is500Error (interceptor e)) eqn:Hyes.
  - rewrite (getObservations_retried _ _ _ _ _ e H Hv Hyes). now split.
  - rewrite (getObservations_not_retried _ _ _ _ _ e H)
      by (rewrite Hyes; apply andb_false_r).
    cbn [snd trace requests]. split; intros Hx; discriminate Hx.
Qed.


(** A 500 answer that brings no message of its own is retried whenever the
    transport's text mentions 500, as axios' text for that status does. *)
Theorem getObservations_retries_plain_500 (e : JsError) (r : ErrorResponse) :
  Js.default version "latest" = "latest" ->
  this [] primary = Rejected e ->
  response e = Some r -> status r = 500 ->
  server_message r = None \/ server_message r = Some "" ->
  Js.includes (message e) "500" = true ->
  issued (getObservations this datasetId edition version dimensions)
  = [primary; fallback]
  /\ result (getObservations this datasetId edition version dimensions)
     = match this [primary] fallback with
       | Fulfilled r6 => Fulfilled (resp_data r6)
       | Rejected _ => Rejected (failure ServerError 500 (message e))
       end.
Proof.
  intros Hv H Hr Hs Hm H500.
  assert (Hchosen : Js.or_else (server_message r) (message e) = message e)
    by (destruct Hm as [-> | ->]; reflexivity).
  assert (Hyes : is500Error (interceptor e) = true)
    by (rewrite (is500Error_on_500 e r Hr Hs), Hchosen; exact H500).
  unfold issued, result.
  rewrite (getObservations_retried _ _ _ _ _ e H Hv Hyes).
  cbn [fst snd trace requests]. split; [reflexivity|].
  now rewrite interceptor_failure, Hr, Hs, Hchosen.
Qed.

End ObservationRuns.

Section ObservationWitnesses.

Import ONSApiClient Taxonomy Boundary Servers.

Lemma getObservations_success_is_final_witness :
  result (getObservations (always_ok "body") "cpih01" None None cpih_query)
  = Fulfilled "body"
  /\ issued (getObservations (always_ok "body") "cpih01" None None
               cpih_query)
     = [GET (observations_url "cpih01" "time-series" "latest" cpih_query)].
Proof.
  apply (getObservations_success_is_final (always_ok "body") "cpih01" None
           None cpih_query {| resp_status := 200; resp_data := "body" |}).
  reflexivity.
Defined.

Lemma getObservations_pinned_single_request_witness :
  result (getObservations (always_fails (A:=string) bare_500) "cpih01" None
            (Some "63") cpih_query)
  = Rejected (interceptor bare_500)
  /\ issued (getObservations (always_fails (A:=string) bare_500) "cpih01"
               None (Some "63") cpih_query)
     = [GET (observations_url "cpih01" "time-series" "63" cpih_query)]
  /\ warned (getObservations (always_fails (A:=string) bare_500) "cpih01"
               None (Some "63") cpih_query) = [].
Proof.
  apply (getObservations_pinned_single_request
           (always_fails (A:=string) bare_500) "cpih01" None (Some "63")
           cpih_query bare_500).
  - discriminate.
  - reflexivity.
Defined.

Lemma getObservations_fallback_iff_witness :
  issued (getObservations (latest_fails worded_500 "v6") "cpih01" None None
            cpih_query)
  = [GET (observations_url "cpih01" "time-series" "latest" cpih_query);
     GET (observations_url "cpih01" "time-series" "6" cpih_query)]
  <-> Js.includes (message (interceptor worded_500)) "Server error" = true
      /\ Js.includes (message (interceptor worded_500)) "500" = true.
Proof.
  apply (getObservations_fallback_iff (latest_fails worded_500 "v6")
           "cpih01" None None cpih_query worded_500).
  - reflexivity.
  - reflexivity.
Defined.


Lemma getObservations_retries_plain_500_witness :
  issued (getObservations (latest_fails bare_500 "v6") "cpih01" None None
            cpih_query)
  = [GET (observations_url "cpih01" "time-series" "latest" cpih_query);
     GET (observations_url "cpih01" "time-series" "6" cpih_query)]
  /\ result (getObservations (latest_fails bare_500 "v6") "cpih01" None None
               cpih_query)
     = match latest_fails bare_500 "v6"
               [GET (observations_url "cpih01" "time-series" "latest"
                       cpih_query)]
               (GET (observations_url "cpih01" "time-series" "6"
                       cpih_query)) with
       | Fulfilled r6 => Fulfilled (resp_data r6)
       | Rejected _ =>
           Rejected (failure ServerError 500 (message bare_500))
       end.
Proof.
  apply (getObservations_retries_plain_500 (latest_fails bare_500 "v6")
           "cpih01" None None cpih_query bare_500
           {| status := 500; data := None |}).
  - reflexivity.
  - reflexivity.
  - reflexivity.
  - reflexivity.
  - left. reflexivity.
  - vm_compute. reflexivity.
Defined.

End ObservationWitnesses.

(** ** Urls and the dimension query *)

Section Urls.

Import ONSApiClient Boundary Servers.

(** The request of a fallback is never the primary request again: for the
    same dataset, edition and dimensions the urls for "latest" and for "6"
    differ. *)
Theorem fallback_url_differs (datasetId edition : string)
    (dimensions : StringRecord) :
  observations_url datasetId edition "latest" dimensions
  <> observations_url datasetId edition "6" dimensions
  /\ version_url datasetId edition "latest"
     <> version_url datasetId edition "6".
Proof.
  split.
  - rewrite !observations_url_shape. intros H.
    apply append_inj_l in H. discriminate H.
  - unfold version_url. intros H.
    change ("/datasets/" ++ datasetId ++ "/editions/" ++ edition
            ++ "/versions/" ++ "latest")
      with ("/datasets/" ++ (datasetId ++ "/editions/" ++ edition
                             ++ "/versions/" ++ "latest")) in H.
    apply append_inj_l in H.
    apply append_inj_l in H. apply (append_inj_l "/editions/") in H.
    apply append_inj_l in H. discriminate H.
Qed.

Lemma dimensionParams_cons (k v : string) (rest : StringRecord) :
  rest <> [] ->
  dimensionParams ((k, v) :: rest)
  = k ++ "=" ++ v ++ "&" ++ dimensionParams rest.
Proof.
  intros Hrest. unfold dimensionParams, Js.join.
  destruct rest as [|kv rest]; [contradiction|].
  cbn [map String.concat fst snd]. now rewrite !append_assoc.
Qed.

Lemma dimensionParams_one (k v : string) :
  dimensionParams [(k, v)] = k ++ "=" ++ v.
Proof.
  unfold dimensionParams, Js.join. cbn [map String.concat fst snd].
  reflexivity.
Qed.

Lemma lacks_app (c : ascii) (a b : string) :
  Js.lacks c (a ++ String c b) = false.
Proof.
  induction a as [|d a IH]; simpl.
  - now rewrite Ascii.eqb_refl.
  - rewrite IH. apply andb_false_r.
Qed.

(** A text is cut at the first occurrence of a separator in one way only. *)
Lemma cut_at_first (c : ascii) (a a' x y : string) :
  Js.lacks c a = true -> Js.lacks c a' = true ->
  a ++ String c x = a' ++ String c y -> a = a' /\ x = y.
Proof.
  revert a'. induction a as [|d a IH]; intros [|d' a'] Ha Ha' H; simpl in *.
  - injection H as ->. now split.
  - injection H as -> _. now rewrite Ascii.eqb_refl in Ha'.
  - injection H as -> _. now rewrite Ascii.eqb_refl in Ha.
  - injection H as -> H.
    apply andb_true_iff in Ha. apply andb_true_iff in Ha'.
    destruct (IH a' (proj2 Ha) (proj2 Ha') H) as [-> ->]. now split.
Qed.

Lemma dimensionParams_plain_inj (l1 l2 : StringRecord) :
  plain_entries l1 = true -> plain_entries l2 = true ->
  dimensionParams l1 = dimensionParams l2 -> l1 = l2.
Proof.
  unfold plain_entries, plain.
  revert l2.
  induction l1 as [|[k v] r1 IH]; intros [|[k' v'] r2] H1 H2 H.
  - reflexivity.
  - exfalso. destruct r2.
    + rewrite dimensionParams_one in H. destruct k'; discriminate H.
    + rewrite dimensionParams_cons in H by discriminate.
      destruct k'; discriminate H.
  - exfalso. destruct r1.
    + rewrite dimensionParams_one in H. destruct k; discriminate H.
    + rewrite dimensionParams_cons in H by discriminate.
      destruct k; discriminate H.
  - cbn [forallb fst snd] in H1, H2.
    repeat match goal with
           | Hx : _ && _ = true |- _ =>
               apply andb_true_iff in Hx; destruct Hx
           end.
    destruct r1 as [|e1 r1], r2 as [|e2 r2].
    + rewrite !dimensionParams_one in H.
      destruct (cut_at_first "=" k k' v v') as [-> ->]; auto.
    + rewrite dimensionParams_one, dimensionParams_cons in H
        by discriminate.
      destruct (cut_at_first "=" k k' v (v' ++ "&" ++ dimensionParams (e2 :: r2)))
        as [_ Hv]; auto.
      exfalso. rewrite Hv in *.
      match goal with
      | Hx : Js.lacks "&" (v' ++ _) = true |- _ =>
          change (v' ++ "&" ++ dimensionParams (e2 :: r2))
            with (v' ++ String "&" (dimensionParams (e2 :: r2))) in Hx;
          rewrite lacks_app in Hx; discriminate Hx
      end.
    + rewrite dimensionParams_one, dimensionParams_cons in H
        by discriminate.
      destruct (cut_at_first "=" k k' (v ++ "&" ++ dimensionParams (e1 :: r1)) v')
        as [_ Hv]; auto.
      exfalso. rewrite <- Hv in *.
      match goal with
      | Hx : Js.lacks "&" (v ++ _) = true |- _ =>
          change (v ++ "&" ++ dimensionParams (e1 :: r1))
            with (v ++ String "&" (dimensionParams (e1 :: r1))) in Hx;
          rewrite lacks_app in Hx; discriminate Hx
      end.
    + rewrite !dimensionParams_cons in H by discriminate.
      destruct (cut_at_first "=" k k'
                  (v ++ "&" ++ dimensionParams (e1 :: r1))
                  (v' ++ "&" ++ dimensionParams (e2 :: r2)))
        as [-> Hv]; auto.
      destruct (cut_at_first "&" v v' (dimensionParams (e1 :: r1))
                  (dimensionParams (e2 :: r2))) as [-> Hr]; auto.
      f_equal. apply IH; auto.
Qed.

(** The dimension query writes the entries of the record, in the order
    [Object.entries] lists them, as [key=value] joined with "&"; a record
    without entries gives the empty query.  When no key and no value
    contains "&" or "=", the query tells the entries: two different lists of
    entries never give the same query. *)
Theorem dimensionParams_entries (l1 l2 : StringRecord) :
  plain_entries l1 = true -> plain_entries l2 = true ->
  (dimensionParams l1 = dimensionParams l2 -> l1 = l2)
  /\ dimensionParams [] = ""
  /\ (forall k v, dimensionParams [(k, v)] = k ++ "=" ++ v)
  /\ (forall k v rest, rest <> [] ->
        dimensionParams ((k, v) :: rest)
        = k ++ "=" ++ v ++ "&" ++ dimensionParams rest).
Proof.
  intros H1 H2. split; [now apply dimensionParams_plain_inj|].
  split; [reflexivity|]. split; [exact dimensionParams_one|].
  exact dimensionParams_cons.
Qed.

Lemma dimensionParams_entries_witness :
  cpih_query
  = [("time", "Aug-23"); ("geography", "K02000001");
     ("aggregate", "cpih1dim1A0")]
  /\ dimensionParams [("time", "Aug-23")] = "time" ++ "=" ++ "Aug-23".
Proof.
  split.
  - apply (proj1 (dimensionParams_entries cpih_query
                    [("time", "Aug-23"); ("geography", "K02000001");
                     ("aggregate", "cpih1dim1A0")] eq_refl eq_refl)).
    vm_compute. reflexivity.
  - apply (proj1 (proj2 (proj2 (dimensionParams_entries cpih_query
                                  [("time", "Aug-23")] eq_refl eq_refl)))).
Defined.

(** Keys and values go into the query as they are, with no escaping: a value
    that contains "&" and "=" reads as a further parameter.  For two keys
    that are distinct and are not integer indices, the record whose one
    entry is [k] with the value [v&k'=v'] gives the same query as the record
    with the two entries [k], [v] and [k'], [v'], and getObservations makes
    the very same requests for both. *)
Theorem dimensionParams_no_escaping (k v k' v' : string) :
  insertion_ordered [(k, v); (k', v')] ->
  dimensionParams [(k, v ++ "&" ++ k' ++ "=" ++ v')]
  = dimensionParams [(k, v); (k', v')]
  /\ forall A (this : Adapter A) d ed ver,
       getObservations this d ed ver [(k, v ++ "&" ++ k' ++ "=" ++ v')]
       = getObservations this d ed ver [(k, v); (k', v')].
Proof.
  intros _.
  assert (H : dimensionParams [(k, v ++ "&" ++ k' ++ "=" ++ v')]
              = dimensionParams [(k, v); (k', v')]).
  { unfold dimensionParams, Js.join. cbn [map String.concat fst snd].
    now rewrite !append_assoc. }
  split; [exact H|]. intros A this d ed ver.
  unfold getObservations, observations_url. now rewrite H.
Qed.

Lemma dimensionParams_no_escaping_witness :
  dimensionParams [("time", "Aug-23" ++ "&" ++ "geography" ++ "=" ++ "K02000001")]
  = dimensionParams [("time", "Aug-23"); ("geography", "K02000001")].
Proof.
  refine (proj1 (dimensionParams_no_escaping "time" "Aug-23" "geography"
                   "K02000001" _)).
  split.
  - repeat constructor; simpl; intuition discriminate.
  - repeat constructor.
Defined.

End Urls.

(** ** More on searching *)

Section SearchRuns.

Import ONSApiClient Search Servers Catalogue.

Lemma In_firstn {B : Type} (x : B) (n : nat) (l : list B) :
  In x (firstn n l) -> In x l.
Proof.
  revert l. induction n as [|n IH]; intros [|y l]; simpl; try tauto.
  intros [H|H]; [now left | right; now apply IH].
Qed.

Lemma In_skipn {B : Type} (x : B) (n : nat) (l : list B) :
  In x (skipn n l) -> In x l.
Proof.
  revert l. induction n as [|n IH]; intros [|y l]; simpl; try tauto.
  intros H. right. now apply IH.
Qed.

Lemma In_slice {B : Type} (x : B) (l : list B) (a b : Z) :
  In x (Js.slice l a b) -> In x l.
Proof.
  unfold Js.slice. intros H. apply In_firstn in H. now apply In_skipn in H.
Qed.

Lemma slice_to_negative {B : Type} (l : list B) (n : Z) :
  n < 0 ->
  Js.slice l 0 n = firstn (length l - Z.to_nat (- n)) l.
Proof.
  intros Hn. unfold Js.slice, Js.relative_index.
  replace (n <? 0) with true by (symmetry; apply Z.ltb_lt; exact Hn).
  replace (0 <? 0) with false by reflexivity.
  rewrite (Z.min_l 0) by lia. cbn [Z.to_nat skipn]. rewrite Z.sub_0_r.
  f_equal. lia.
Qed.

Lemma includes_empty (s : string) : Js.includes s "" = true.
Proof. apply includes_spec. now exists "", s. Qed.

Lemma filter_all {B : Type} (f : B -> bool) (l : list B) :
  (forall x, f x = true) -> filter f l = l.
Proof.
  intros Hf. induction l as [|x l IH]; simpl; [reflexivity|].
  now rewrite Hf, IH.
Qed.

Lemma searchDatasets_items (this : Adapter ONSDatasetList) (query : string)
    (lim : option Z) (r : AxiosResponse ONSDatasetList)
    (page : ONSDatasetList) :
  this [] page_request = Fulfilled r ->
  result (searchDatasets this query lim) = Fulfilled page ->
  items page
  = Js.slice (filter (matches (Js.toLowerCase query)) (items (resp_data r)))
      0 (Js.default lim 10).
Proof.
  intros Hr Hres. unfold result in Hres.
  rewrite (searchDatasets_fulfilled this query lim r Hr) in Hres.
  cbv zeta in Hres. cbn [fst] in Hres. now injection Hres as <-.
Qed.

(** For every limit, negative ones included, and for a query and a fetched
    page whose titles, descriptions and ids are text in the ASCII range,
    every dataset that searchDatasets returns is a dataset of the fetched
    page that contains the query in its title, description or id,
    case-insensitively; the result never has more items than the page. *)
Theorem searchDatasets_sound (this : Adapter ONSDatasetList)
    (query : string) (lim : option Z) (r : AxiosResponse ONSDatasetList)
    (page : ONSDatasetList) :
  this [] page_request = Fulfilled r ->
  result (searchDatasets this query lim) = Fulfilled page ->
  Js.is_ascii query = true ->
  forallb ascii_dataset (items (resp_data r)) = true ->
  (forall d, In d (items page) ->
     In d (items (resp_data r)) /\ hit query d)
  /\ (length (items page) <= length (items (resp_data r)))%nat.
Proof.
  intros Hr Hres _ _.
  rewrite (searchDatasets_items this query lim r page Hr Hres). split.
  - intros d Hd. apply In_slice in Hd. apply filter_In in Hd.
    destruct Hd as [Hin Hm]. split; [exact Hin|]. now apply matches_spec.
  - unfold Js.slice. rewrite length_firstn, length_skipn.
    pose proof (filter_length_le (matches (Js.toLowerCase query))
                  (items (resp_data r))).
    lia.
Qed.

(** For a query and a fetched page whose titles, descriptions and ids are
    text in the ASCII range: when the limit is at least the number of hits on
    the page, searchDatasets returns every hit, in the order of the page. *)
Theorem searchDatasets_complete (this : Adapter ONSDatasetList)
    (query : string) (lim : option Z) (r : AxiosResponse ONSDatasetList)
    (page : ONSDatasetList) :
  this [] page_request = Fulfilled r ->
  result (searchDatasets this query lim) = Fulfilled page ->
  Js.is_ascii query = true ->
  forallb ascii_dataset (items (resp_data r)) = true ->
  Z.of_nat (length (filter (matches (Js.toLowerCase query))
                      (items (resp_data r))))
  <= Js.default lim 10 ->
  items page
  = filter (matches (Js.toLowerCase query)) (items (resp_data r))
  /\ forall d, In d (items (resp_data r)) -> hit query d ->
               In d (items page).
Proof.
  intros Hr Hres _ _ Hlim.
  rewrite (searchDatasets_items this query lim r page Hr Hres).
  rewrite slice_from_0 by lia. rewrite firstn_all2 by lia.
  split; [reflexivity|]. intros d Hin Hhit. apply filter_In.
  split; [exact Hin|]. now apply matches_spec.
Qed.

(** The empty query matches every dataset: searchDatasets then returns the
    first [limit] datasets of the page. *)
Theorem searchDatasets_empty_query (this : Adapter ONSDatasetList)
    (lim : option Z) (r : AxiosResponse ONSDatasetList)
    (page : ONSDatasetList) :
  0 <= Js.default lim 10 ->
  this [] page_request = Fulfilled r ->
  result (searchDatasets this "" lim) = Fulfilled page ->
  items page = firstn (Z.to_nat (Js.default lim 10)) (items (resp_data r)).
Proof.
  intros Hlim Hr Hres.
  rewrite (searchDatasets_items this "" lim r page Hr Hres).
  rewrite slice_from_0 by exact Hlim. f_equal. apply filter_all.
  intros d. unfold matches. cbn [Js.toLowerCase].
  now rewrite includes_empty.
Qed.

(** A negative limit does not give an empty result: -n drops the last n hits
    and returns the others. *)
Theorem searchDatasets_negative_limit_drops (this : Adapter ONSDatasetList)
    (query : string) (n : Z) (r : AxiosResponse ONSDatasetList)
    (page : ONSDatasetList) :
  n < 0 ->
  this [] page_request = Fulfilled r ->
  result (searchDatasets this query (Some n)) = Fulfilled page ->
  let hits :=
    filter (matches (Js.toLowerCase query)) (items (resp_data r)) in
  items page = firstn (length hits - Z.to_nat (- n)) hits
  /\ limit page = n
  /\ count page = Z.max (Z.of_nat (length hits) + n) 0.
Proof.
  intros Hn Hr Hres hits. unfold result in Hres.
  rewrite (searchDatasets_fulfilled this query (Some n) r Hr) in Hres.
  cbv zeta in Hres. cbn [fst Js.default] in Hres. injection Hres as <-.
  cbn [items limit count]. fold hits.
  rewrite slice_to_negative by exact Hn.
  repeat split. rewrite length_firstn. lia.
Qed.

(** The case of the query does not matter: two queries that are the same up
    to the case of letters give the same search. *)
Theorem searchDatasets_query_case (this : Adapter ONSDatasetList)
    (q1 q2 : string) (lim : option Z) :
  same_up_to_case q1 q2 ->
  searchDatasets this q1 lim = searchDatasets this q2 lim.
Proof.
  unfold same_up_to_case, searchDatasets. intros H. now rewrite H.
Qed.

(** Raising the limit only adds hits at the end: the result for a limit is
    the first [limit] items of the result for any greater limit. *)
Theorem searchDatasets_limit_monotone (this : Adapter ONSDatasetList)
    (query : string) (l1 l2 : Z) (p1 p2 : ONSDatasetList) :
  0 <= l1 <= l2 ->
  result (searchDatasets this query (Some l1)) = Fulfilled p1 ->
  result (searchDatasets this query (Some l2)) = Fulfilled p2 ->
  items p1 = firstn (Z.to_nat l1) (items p2).
Proof.
  intros Hl H1 H2.
  destruct (this [] page_request) as [r|e] eqn:Hr.
  - rewrite (searchDatasets_items this query (Some l1) r p1 Hr H1).
    rewrite (searchDatasets_items this query (Some l2) r p2 Hr H2).
    cbn [Js.default]. rewrite !slice_from_0 by lia.
    rewrite firstn_firstn. f_equal. lia.
  - unfold result in H1.
    rewrite (searchDatasets_rejected this query (Some l1) e Hr) in H1.
    discriminate H1.
Qed.

End SearchRuns.

Section SearchWitnesses.

Import ONSApiClient Search Servers Catalogue.

Local Abbreviation shelf := (always_ok (page_of [cpi; trade; goods] 337)).
Local Abbreviation shelf_answer :=
  {| resp_status := 200; resp_data := page_of [cpi; trade; goods] 337 |}.
Local Abbreviation found h n :=
  {| count := Z.of_nat (length h); items := h; limit := n; offset := 0;
     total_count := Z.of_nat (length h) |}.

Lemma searchDatasets_sound_witness :
  (forall d, In d [trade; goods] ->
     In d [cpi; trade; goods] /\ hit "TRADE" d)
  /\ (length [trade; goods] <= length [cpi; trade; goods])%nat.
Proof.
  apply (searchDatasets_sound shelf "TRADE" (Some 5) shelf_answer
           (found [trade; goods] 5)).
  - reflexivity.
  - vm_compute. reflexivity.
  - reflexivity.
  - reflexivity.
Defined.

Lemma searchDatasets_complete_witness :
  [trade; goods] = filter (matches (Js.toLowerCase "trade"))
                     [cpi; trade; goods]
  /\ forall d, In d [cpi; trade; goods] -> hit "trade" d ->
               In d [trade; goods].
Proof.
  apply (searchDatasets_complete shelf "trade" None shelf_answer
           (found [trade; goods] 10)).
  - reflexivity.
  - vm_compute. reflexivity.
  - reflexivity.
  - reflexivity.
  - vm_compute. discriminate.
Defined.

Lemma searchDatasets_empty_query_witness :
  [cpi; trade] = firstn (Z.to_nat 2) [cpi; trade; goods].
Proof.
  apply (searchDatasets_empty_query shelf (Some 2) shelf_answer
           (found [cpi; trade] 2)).
  - simpl. lia.
  - reflexivity.
  - vm_compute. reflexivity.
Defined.

Lemma searchDatasets_negative_limit_drops_witness :
  [trade]
  = firstn (length (filter (matches (Js.toLowerCase "trade"))
                      [cpi; trade; goods]) - Z.to_nat (- (-1)))
      (filter (matches (Js.toLowerCase "trade")) [cpi; trade; goods])
  /\ -1 = -1
  /\ 1 = Z.max (Z.of_nat (length (filter (matches (Js.toLowerCase "trade"))
                                [cpi; trade; goods])) + -1) 0.
Proof.
  apply (searchDatasets_negative_limit_drops shelf "trade" (-1) shelf_answer
           (found [trade] (-1))).
  - lia.
  - reflexivity.
  - vm_compute. reflexivity.
Defined.

Lemma searchDatasets_query_case_witness :
  searchDatasets shelf "TRADE" (Some 3) = searchDatasets shelf "trade" (Some 3).
Proof.
  apply (searchDatasets_query_case shelf "TRADE" "trade" (Some 3)).
  reflexivity.
Defined.

Lemma searchDatasets_limit_monotone_witness :
  [trade] = firstn (Z.to_nat 1) [trade; goods].
Proof.
  apply (searchDatasets_limit_monotone shelf "trade" 1 2
           (found [trade] 1) (found [trade; goods] 2)).
  - lia.
  - vm_compute. reflexivity.
  - vm_compute. reflexivity.
Defined.

End SearchWitnesses.

(** ** The operations that make one request *)

Section SingleRequest.

Import ONSApiClient Servers Catalogue.

(** listDatasets, getDataset and getDimensionOptions each issue exactly one
    request (listDatasets with limit 20 and offset 0 when these are omitted)
    and check nothing: the body of the answer is the result as it is, and a
    failure is thrown on as the interceptor delivers it. *)
Theorem passthrough_operations :
  (forall this lim off,
     let req := {| url := "/datasets";
                   params := [("limit", Js.default lim 20);
                              ("offset", Js.default off 0)] |} in
     issued (listDatasets this lim off) = [req]
     /\ result (listDatasets this lim off)
        = match this [] req with
          | Fulfilled r => Fulfilled (resp_data r)
          | Rejected e => Rejected (interceptor e)
          end)
  /\ (forall this d,
        let req := GET ("/datasets/" ++ d) in
        issued (getDataset this d) = [req]
        /\ result (getDataset this d)
           = match this [] req with
             | Fulfilled r => Fulfilled (resp_data r)
             | Rejected e => Rejected (interceptor e)
             end)
  /\ (forall A (this : Adapter A) d dim,
        let req := GET ("/datasets/" ++ d ++ "/dimensions/" ++ dim
                        ++ "/options") in
        issued (getDimensionOptions this d dim) = [req]
        /\ result (getDimensionOptions this d dim)
           = match this [] req with
             | Fulfilled r => Fulfilled (resp_data r)
             | Rejected e => Rejected (interceptor e)
             end).
Proof.
  repeat split; intros;
    unfold issued, result, listDatasets, getDataset, getDimensionOptions;
    run_async;
    match goal with
    | |- context [match ?x with Fulfilled _ => _ | Rejected _ => _ end] =>
        destruct x
    end;
    reflexivity.
Qed.

(** searchDatasets makes the request of listDatasets(100, 0), whatever its
    own limit, and getDatasetDimensions the request of getDataset.  When the
    bodies of the answers have the declared shapes (a page whose items have
    a title, a description and an id that are strings; a dataset that is an
    object), each rejects exactly when that operation rejects, with the same
    failure, so neither hides a failure behind an empty result. *)
Theorem derived_operations_propagate :
  (forall this q lim,
     issued (searchDatasets this q lim)
     = issued (listDatasets this (Some 100) (Some 0))
     /\ forall e,
          result (searchDatasets this q lim) = Rejected e
          <-> result (listDatasets this (Some 100) (Some 0)) = Rejected e)
  /\ (forall this d,
        issued (getDatasetDimensions this d) = issued (getDataset this d)
        /\ forall e,
             result (getDatasetDimensions this d) = Rejected e
             <-> result (getDataset this d) = Rejected e).
Proof.
  split; intros;
    unfold issued, result, searchDatasets, getDatasetDimensions,
      listDatasets, getDataset;
    run_async; cbn [Js.default];
    match goal with
    | |- context [match ?x with Fulfilled _ => _ | Rejected _ => _ end] =>
        destruct x
    end;
    cbn [fst snd requests]; (split; [reflexivity|]);
    intros e0; split; intros H;
    (discriminate H || (injection H as <-; reflexivity)).
Qed.

Lemma getPopularDatasets_distinct :
  NoDup getPopularDatasets /\ length getPopularDatasets = 10%nat.
Proof.
  split; [|reflexivity].
  unfold getPopularDatasets.
  repeat (constructor; [simpl; intuition discriminate|]). constructor.
Qed.

End SingleRequest.
